(** * Padel analysis: front-end handlers, conversion script and the
      tracking pipeline

    The first part embeds the React handlers of the login and upload pages
    (LoginPage.tsx, UploadPage.tsx, App.tsx) as state-passing programs over a
    small browser state.  The second part models the tracking-and-event
    pipeline of the specification over exact rationals.  The third part
    embeds the batch script that converts recordings to 720p at 30 fps. *)

From Stdlib Require Import String Ascii List Bool Arith ZArith QArith Lia.
Import ListNotations.

Local Close Scope Q_scope.
Local Open Scope nat_scope.
Local Open Scope string_scope.

(* ===================================================================== *)
(** ** Browser state and the handler monad *)
(* ===================================================================== *)

Module Browser.

(** What a handler can observe or change: the router's history stack (the
    current location is its head), the messages shown by [alert], and
    whether the event being dispatched had its default action prevented. *)
Record World := mkWorld {
  history : list string;
  alerts : list string;
  defaultPrevented : bool
}.

Definition location (w : World) : string :=
  match history w with
  | [] => "/"
  | p :: _ => p
  end.

Definition M (A : Type) : Type := World -> A * World.

Definition ret {A} (a : A) : M A := fun w => (a, w).

Definition bind {A B} (m : M A) (k : A -> M B) : M B :=
  fun w => let (a, w') := m w in k a w'.

Definition exec {A} (m : M A) (w : World) : World := snd (m w).

(** [event.preventDefault()] *)
Definition preventDefault : M unit :=
  fun w => (tt, mkWorld (history w) (alerts w) true).

(** [alert(msg)] *)
Definition alert (msg : string) : M unit :=
  fun w => (tt, mkWorld (history w) (alerts w ++ [msg])%list (defaultPrevented w)).

(** [navigate(to)] of react-router with an absolute path: pushes [to]. *)
Definition navigate (to : string) : M unit :=
  fun w => (tt, mkWorld (to :: history w) (alerts w) (defaultPrevented w)).

(** A page freshly opened at [path], before any event is dispatched. *)
Definition opened (path : string) : World := mkWorld [path] [] false.

End Browser.

Import Browser.

Declare Scope handler_scope.
Delimit Scope handler_scope with handler.
Notation "x <- m ;; k" := (bind m (fun x => k))
  (at level 61, m at next level, right associativity) : handler_scope.
Notation "m ;; k" := (bind m (fun _ => k))
  (at level 61, right associativity) : handler_scope.

(* ===================================================================== *)
(** ** LoginPage.tsx *)
(* ===================================================================== *)

Module LoginPage.

(** The submit event of the login form, with the values the two
    uncontrolled inputs hold at submission. *)
Record FormEvent := mkFormEvent {
  brugernavn : string;
  adgangskode : string
}.

(** [handleLogin]: the local [loginSuccessful] starts at [false] on each
    render; the handler returns its final value. *)
Definition handleLogin (event : FormEvent) : M bool :=
  (preventDefault ;;
   alert "Login form submitted" ;;
   let loginSuccessful := true in
   (if loginSuccessful then navigate "/upload" else ret tt) ;;
   ret loginSuccessful)%handler.

End LoginPage.

(* ===================================================================== *)
(** ** App.tsx: the route table *)
(* ===================================================================== *)

Module App.

Inductive Page := LoginPageElement | UploadPageElement.

(** [<Routes>] children, in source order. *)
Definition routes : list (string * Page) :=
  [("/", LoginPageElement); ("/upload", UploadPageElement)].

Definition lower (c : ascii) : ascii :=
  let n := nat_of_ascii c in
  if ((65 <=? n) && (n <=? 90))%nat then ascii_of_nat (n + 32) else c.

Fixpoint lowercase (s : string) : string :=
  match s with
  | EmptyString => EmptyString
  | String c r => String (lower c) (lowercase r)
  end.

(** Drops the slashes that end a path. *)
Fixpoint stripTrailingSlashes (s : string) : string :=
  match s with
  | EmptyString => EmptyString
  | String c r =>
      match stripTrailingSlashes r with
      | EmptyString => if Ascii.eqb c "/"%char then EmptyString else String c EmptyString
      | r' => String c r'
      end
  end.

(** react-router matches a parameterless route pattern against a pathname
    ignoring case and trailing slashes. *)
Definition matchPath (pattern pathname : string) : bool :=
  String.eqb (lowercase (stripTrailingSlashes pattern))
             (lowercase (stripTrailingSlashes pathname)).

Fixpoint matchRoutes (rs : list (string * Page)) (pathname : string) : option Page :=
  match rs with
  | [] => None
  | (pat, el) :: rest =>
      if matchPath pat pathname then Some el else matchRoutes rest pathname
  end.

End App.

(* ===================================================================== *)
(** ** UploadPage.tsx *)
(* ===================================================================== *)

Module UploadPage.

Record File := mkFile { name : string }.

(** Component state: [useState<string | null>(null)]. *)
Definition State := option string.

Definition initial : State := None.

(** JavaScript truthiness of a [string | null]. *)
Definition truthy (v : option string) : bool :=
  match v with
  | None => false
  | Some s => negb (String.eqb s "")
  end.

(** ["..." + fileName] *)
Definition concatNullable (prefix : string) (v : option string) : string :=
  match v with
  | None => prefix ++ "null"
  | Some s => prefix ++ s
  end.

(** The [onChange] of the file input: [e.target.files?.[0]]. *)
Definition onChange (files : list File) : State :=
  match files with
  | [] => None
  | f :: _ => Some (name f)
  end.

Definition handleAnalyse (fileName : State) : M unit :=
  (alert (concatNullable "Analyse started for file: " fileName) ;;
   navigate "/1234")%handler.

Definition visibleClass : string :=
  "text-2xl mt-6 bg-gradient-to-r from-green-300 to-blue-500 rounded-md p-4 px-8 w-64 hover:from-green-400 hover:to-blue-600 hover:cursor-pointer transition-colors".

(** [className] of the analyse button. *)
Definition buttonClass (fileName : State) : string :=
  if negb (truthy fileName) then "hidden" else visibleClass.

Definition buttonShown (fileName : State) : bool :=
  negb (String.eqb (buttonClass fileName) "hidden").

(** What a user can do on the page. *)
Inductive Action :=
| SelectFiles (files : list File)
| PressAnalyse.

(** One user action on the page: a press reaches [handleAnalyse] only
    through the displayed button. *)
Definition step (st : State * World) (a : Action) : State * World :=
  let (fileName, w) := st in
  match a with
  | SelectFiles files => (onChange files, w)
  | PressAnalyse =>
      if buttonShown fileName then (fileName, exec (handleAnalyse fileName) w)
      else (fileName, w)
  end.

Definition run (acts : list Action) (st : State * World) : State * World :=
  fold_left step acts st.

(** Whether the file chosen most recently is still selected. *)
Fixpoint fileSelected (acts : list Action) (sel : bool) : bool :=
  match acts with
  | [] => sel
  | SelectFiles files :: rest =>
      fileSelected rest (match files with [] => false | _ :: _ => true end)
  | PressAnalyse :: rest => fileSelected rest sel
  end.

(** The line under the file input: [fileName ? fileName : "..."]. *)
Definition statusText (fileName : State) : string :=
  if truthy fileName
  then match fileName with Some s => s | None => "" end
  else "Ingen fil valgt endnu".

(** The files of the latest [SelectFiles] action, if there was one. *)
Fixpoint lastSelection (acts : list Action) (last : option (list File))
  : option (list File) :=
  match acts with
  | [] => last
  | SelectFiles files :: rest => lastSelection rest (Some files)
  | PressAnalyse :: rest => lastSelection rest last
  end.

(** The names announced by the presses of the shown button, in order:
    [fileName] is the state the run of [acts] starts from. *)
Fixpoint announced (acts : list Action) (fileName : State) : list string :=
  match acts with
  | [] => []
  | SelectFiles files :: rest => announced rest (onChange files)
  | PressAnalyse :: rest =>
      if buttonShown fileName
      then match fileName with
           | Some s => s :: announced rest fileName
           | None => announced rest fileName
           end
      else announced rest fileName
  end.

End UploadPage.

(* ===================================================================== *)
(** ** The pages together: what [<Routes>] renders and what a user can do *)
(* ===================================================================== *)

Module AppFlow.

Inductive UserAction :=
| SubmitLogin (event : LoginPage.FormEvent)
| OnUploadPage (a : UploadPage.Action).

(** The element [<Routes>] renders at the current location. *)
Definition rendered (w : World) : option App.Page :=
  App.matchRoutes App.routes (location w).

(** One user action.  Only the rendered page takes actions; the upload
    page mounts with [fileName] null. *)
Definition step (st : UploadPage.State * World) (a : UserAction)
  : UploadPage.State * World :=
  match rendered (snd st), a with
  | Some App.LoginPageElement, SubmitLogin event =>
      (UploadPage.initial, snd (LoginPage.handleLogin event (snd st)))
  | Some App.UploadPageElement, OnUploadPage a' => UploadPage.step st a'
  | _, _ => st
  end.

Definition run (acts : list UserAction) (st : UploadPage.State * World)
  : UploadPage.State * World :=
  fold_left step acts st.

(** The application opened at the login page. *)
Definition start : UploadPage.State * World := (UploadPage.initial, opened "/").

End AppFlow.

(* ===================================================================== *)
(** ** Shared data model of the tracking pipeline (specification, section 3) *)
(* ===================================================================== *)

Module Model.

Local Open Scope Q_scope.

(** Strict comparison on rationals, as a boolean. *)
Definition Qltb (a b : Q) : bool := negb (Qle_bool b a).

Definition Qmaxq (a b : Q) : Q := if Qle_bool a b then b else a.
Definition Qminq (a b : Q) : Q := if Qle_bool a b then a else b.
Definition Qabsq (a : Q) : Q := if Qle_bool 0 a then a else - a.

(** [clamp lo hi x]: [x] brought into the interval from [lo] to [hi]. *)
Definition clamp (lo hi x : Q) : Q := Qmaxq lo (Qminq hi x).

(** The first element of [l] with the least [key]. *)
Fixpoint argmin {A : Type} (key : A -> Q) (l : list A) : option A :=
  match l with
  | [] => None
  | a :: rest =>
      match argmin key rest with
      | None => Some a
      | Some b => if Qle_bool (key a) (key b) then Some a else Some b
      end
  end.

(** The six classes of the detector; the annotation format numbers them
    0-3 (players), 4 (racket) and 5 (ball). *)
Inductive Class :=
| player_1 | player_2 | player_3 | player_4 | racket | ball.


Definition class_eqb (a b : Class) : bool :=
  match a, b with
  | player_1, player_1 | player_2, player_2 | player_3, player_3
  | player_4, player_4 | racket, racket | ball, ball => true
  | _, _ => false
  end.

Definition is_player (c : Class) : bool :=
  match c with
  | player_1 | player_2 | player_3 | player_4 => true
  | racket | ball => false
  end.

Record Point := mkPoint { px : Q; py : Q }.

(** A bounding box: top-left corner, width and height, in pixels. *)
Record BBox := mkBBox { bx : Q; by_ : Q; bw : Q; bh : Q }.

Definition center (b : BBox) : Point :=
  mkPoint (bx b + bw b / 2) (by_ b + bh b / 2).

Definition box_around (c : Point) (w h : Q) : BBox :=
  mkBBox (px c - w / 2) (py c - h / 2) w h.

Definition area (b : BBox) : Q := bw b * bh b.

Definition overlap (lo1 len1 lo2 len2 : Q) : Q :=
  Qmaxq 0 (Qminq (lo1 + len1) (lo2 + len2) - Qmaxq lo1 lo2).

(** Intersection over union of two boxes; 0 when the union is empty. *)
Definition iou (a b : BBox) : Q :=
  let inter := overlap (bx a) (bw a) (bx b) (bw b)
               * overlap (by_ a) (bh a) (by_ b) (bh b) in
  let union := area a + area b - inter in
  if Qle_bool union 0 then 0 else inter / union.

(** Squared Euclidean distance: distances are compared through their
    squares, which orders them the same way. *)
Definition dist2 (a b : Point) : Q :=
  (px a - px b) * (px a - px b) + (py a - py b) * (py a - py b).

Record Detection := mkDetection {
  frame_index : nat;
  cls : Class;
  bbox : BBox;
  confidence : Q
}.

Inductive Status := Tentative | Confirmed | Lost | Removed.

Definition status_eqb (a b : Status) : bool :=
  match a, b with
  | Tentative, Tentative | Confirmed, Confirmed
  | Lost, Lost | Removed, Removed => true
  | _, _ => false
  end.

Inductive Error := CalibrationError | OutOfOrderFrameError.

End Model.

Import Model.

(* ===================================================================== *)
(** ** Detection Adapter (specification, section 4.1) *)
(* ===================================================================== *)

Module DetectionAdapter.

Local Open Scope Q_scope.

(** One entry of the detector's raw output for a frame. *)
Record RawDetection := mkRaw {
  raw_class : Z;
  raw_bbox : BBox;
  raw_confidence : Q
}.

Record Config := mkConfig {
  frame_width : Q;
  frame_height : Q;
  confidence_floor : Q
}.

Definition default_confidence_floor : Q := 25 # 100.

Definition class_of_id (n : Z) : option Class :=
  match n with
  | 0%Z => Some player_1
  | 1%Z => Some player_2
  | 2%Z => Some player_3
  | 3%Z => Some player_4
  | 4%Z => Some racket
  | 5%Z => Some ball
  | _ => None
  end.

(** The box cut down to the frame rectangle. *)
Definition clip (cfg : Config) (b : BBox) : BBox :=
  let x0 := clamp 0 (frame_width cfg) (bx b) in
  let y0 := clamp 0 (frame_height cfg) (by_ b) in
  let x1 := clamp 0 (frame_width cfg) (bx b + bw b) in
  let y1 := clamp 0 (frame_height cfg) (by_ b + bh b) in
  mkBBox x0 y0 (x1 - x0) (y1 - y0).

Definition confidence_ok (cfg : Config) (c : Q) : bool :=
  Qle_bool 0 c && Qle_bool c 1 && Qle_bool (confidence_floor cfg) c.

(** Modelled from the spec: the Detection Adapter's per-detection
    transform is not in the repository.  A raw detection with an unknown
    class id or a confidence outside [0,1] is malformed and dropped, one
    under the confidence floor is dropped, and the box of a kept one is
    clipped to the frame. *)
Definition adapt_one (cfg : Config) (frame : nat) (r : RawDetection)
  : option Detection :=
  match class_of_id (raw_class r) with
  | None => None
  | Some c =>
      if confidence_ok cfg (raw_confidence r)
      then Some (mkDetection frame c (clip cfg (raw_bbox r)) (raw_confidence r))
      else None
  end.

(** Modelled from the spec: the Detection Adapter is not in the
    repository.  It maps one frame's raw detector output to the frame's
    [Detection] values. *)
Fixpoint adapt (cfg : Config) (frame : nat) (raws : list RawDetection)
  : list Detection :=
  match raws with
  | [] => []
  | r :: rest =>
      match adapt_one cfg frame r with
      | Some d => d :: adapt cfg frame rest
      | None => adapt cfg frame rest
      end
  end.



End DetectionAdapter.

(* ===================================================================== *)
(** ** Court Model (specification, section 4.2) *)
(* ===================================================================== *)

Module CourtModel.

Local Open Scope Q_scope.

(** A 3x3 matrix, by rows. *)
Record Mat3 := mkMat3 {
  m11 : Q; m12 : Q; m13 : Q;
  m21 : Q; m22 : Q; m23 : Q;
  m31 : Q; m32 : Q; m33 : Q
}.

Definition det3 (m : Mat3) : Q :=
  m11 m * (m22 m * m33 m - m23 m * m32 m)
  - m12 m * (m21 m * m33 m - m23 m * m31 m)
  + m13 m * (m21 m * m32 m - m22 m * m31 m).

(** The adjugate: [m * adj3 m] is [det3 m] times the identity. *)
Definition adj3 (m : Mat3) : Mat3 :=
  mkMat3
    (m22 m * m33 m - m23 m * m32 m)
    (m13 m * m32 m - m12 m * m33 m)
    (m12 m * m23 m - m13 m * m22 m)
    (m23 m * m31 m - m21 m * m33 m)
    (m11 m * m33 m - m13 m * m31 m)
    (m13 m * m21 m - m11 m * m23 m)
    (m21 m * m32 m - m22 m * m31 m)
    (m12 m * m31 m - m11 m * m32 m)
    (m11 m * m22 m - m12 m * m21 m).

Definition mul3 (a b : Mat3) : Mat3 :=
  mkMat3
    (m11 a * m11 b + m12 a * m21 b + m13 a * m31 b)
    (m11 a * m12 b + m12 a * m22 b + m13 a * m32 b)
    (m11 a * m13 b + m12 a * m23 b + m13 a * m33 b)
    (m21 a * m11 b + m22 a * m21 b + m23 a * m31 b)
    (m21 a * m12 b + m22 a * m22 b + m23 a * m32 b)
    (m21 a * m13 b + m22 a * m23 b + m23 a * m33 b)
    (m31 a * m11 b + m32 a * m21 b + m33 a * m31 b)
    (m31 a * m12 b + m32 a * m22 b + m33 a * m32 b)
    (m31 a * m13 b + m32 a * m23 b + m33 a * m33 b).

(** The largest absolute row sum. *)
Definition norm_inf (m : Mat3) : Q :=
  Qmaxq (Qabsq (m11 m) + Qabsq (m12 m) + Qabsq (m13 m))
    (Qmaxq (Qabsq (m21 m) + Qabsq (m22 m) + Qabsq (m23 m))
           (Qabsq (m31 m) + Qabsq (m32 m) + Qabsq (m33 m))).

(** Condition number in the row-sum norm: the norm of the matrix times
    the norm of its inverse. *)
Definition condition_number (m : Mat3) : Q :=
  norm_inf m * (norm_inf (adj3 m) / Qabsq (det3 m)).

(** Twice the signed area of the triangle [a b c]; zero exactly when the
    three points lie on one line. *)
Definition orient (a b c : Point) : Q :=
  (px b - px a) * (py c - py a) - (py b - py a) * (px c - px a).

(** The projective map that sends the reference frame (1,0,0), (0,1,0),
    (0,0,1), (1,1,1) to the four points, in homogeneous coordinates. *)
Definition frame_map (p1 p2 p3 p4 : Point) : Mat3 :=
  let l1 := orient p4 p2 p3 in
  let l2 := orient p1 p4 p3 in
  let l3 := orient p1 p2 p4 in
  mkMat3 (l1 * px p1) (l2 * px p2) (l3 * px p3)
         (l1 * py p1) (l2 * py p2) (l3 * py p3)
         l1 l2 l3.

Record CourtDimensions := mkDims { court_width : Q; court_length : Q }.

(** The court rectangle in metres, corners in the calibration order:
    baseline-left, baseline-right, far-right, far-left. *)
Definition court_corners (d : CourtDimensions) : list Point :=
  [mkPoint 0 0; mkPoint (court_width d) 0;
   mkPoint (court_width d) (court_length d); mkPoint 0 (court_length d)].

(** The matrix that solves the four point correspondences pixel to
    court, up to scale. *)
Definition homography_of (p1 p2 p3 p4 : Point) (d : CourtDimensions) : Mat3 :=
  mul3 (frame_map (mkPoint 0 0) (mkPoint (court_width d) 0)
                  (mkPoint (court_width d) (court_length d))
                  (mkPoint 0 (court_length d)))
       (adj3 (frame_map p1 p2 p3 p4)).

Record CourtModel := mkCourtModel {
  corner_points : list Point;
  homography : Mat3;
  court_dimensions : CourtDimensions
}.

(** Modelled from the spec: the Court Model's constructor is not in the
    repository.  It takes the four pixel corners in clockwise order and
    the court dimensions, solves the four correspondences for the
    homography, and fails with [CalibrationError] when corners are missing,
    when the system is singular, or when the condition number of the
    homography is above [threshold]. *)
Definition construct (threshold : Q) (corners : list Point) (d : CourtDimensions)
  : Error + CourtModel :=
  match corners with
  | [p1; p2; p3; p4] =>
      if Qeq_bool (det3 (frame_map p1 p2 p3 p4)) 0 then inl CalibrationError
      else
        let h := homography_of p1 p2 p3 p4 d in
        if Qltb threshold (condition_number h) then inl CalibrationError
        else inr (mkCourtModel corners h d)
  | _ => inl CalibrationError
  end.

(** A matrix applied to a point in homogeneous coordinates, then
    normalised. *)
Definition apply3 (m : Mat3) (p : Point) : Point :=
  let w := m31 m * px p + m32 m * py p + m33 m in
  mkPoint ((m11 m * px p + m12 m * py p + m13 m) / w)
          ((m21 m * px p + m22 m * py p + m23 m) / w).

(** Modelled from the spec: pixel to court position. *)
Definition project (cm : CourtModel) (pixel : Point) : Point :=
  apply3 (homography cm) pixel.

(** Modelled from the spec: court position to pixel, through the inverse
    homography. *)
Definition unproject (cm : CourtModel) (court_position : Point) : Point :=
  apply3 (adj3 (homography cm)) court_position.

(** Modelled from the spec: false outside the court rectangle extended
    by [margin]. *)
Definition is_in_bounds (cm : CourtModel) (p : Point) (margin : Q) : bool :=
  Qle_bool (- margin) (px p)
  && Qle_bool (px p) (court_width (court_dimensions cm) + margin)
  && Qle_bool (- margin) (py p)
  && Qle_bool (py p) (court_length (court_dimensions cm) + margin).

(** Some three of the four corners lie on one line. *)
Definition three_collinear (p1 p2 p3 p4 : Point) : Prop :=
  orient p1 p2 p3 == 0 \/ orient p1 p2 p4 == 0 \/
  orient p1 p3 p4 == 0 \/ orient p2 p3 p4 == 0.

End CourtModel.

(* ===================================================================== *)
(** ** Track Store and Associator for players (specification, section 4.3) *)
(* ===================================================================== *)

Module TrackStore.

Local Open Scope Q_scope.

Record Track := mkTrack {
  id : nat;
  class : Class;
  position : Point;
  velocity : Point;
  width : Q;
  height : Q;
  status : Status;
  hits : nat;                (* consecutive matched frames *)
  age : nat;
  time_since_update : nat;
  history : list (nat * Point)
}.

Record Config := mkConfig {
  max_age : nat;
  min_iou : Q
}.

Definition default_config : Config := mkConfig 30 (1 # 10).

(** The number of consecutive matches that confirms a track. *)
Definition confirm_hits : nat := 3.

(** A track that still takes part in the frame update. *)
Definition live (t : Track) : bool := negb (status_eqb (status t) Removed).

(** A track that detections are matched against: a Lost track is carried
    by motion prediction only. *)
Definition matchable (t : Track) : bool :=
  status_eqb (status t) Tentative || status_eqb (status t) Confirmed.

Definition predicted_box (t : Track) : BBox :=
  box_around (position t) (width t) (height t).

(** Step 1: constant-velocity extrapolation of a live track. *)
Definition predict (t : Track) : Track :=
  if live t then
    mkTrack (id t) (class t)
      (mkPoint (px (position t) + px (velocity t))
               (py (position t) + py (velocity t)))
      (velocity t) (width t) (height t) (status t) (hits t)
      (S (age t)) (time_since_update t) (history t)
  else t.

(** Step 2: one assignable entry of the cost matrix. *)
Record Candidate := mkCandidate {
  cost : Q;
  cand_track : nat;          (* track id *)
  cand_detection : nat       (* position of the detection in the frame *)
}.

Fixpoint number {A : Type} (n : nat) (l : list A) : list (nat * A) :=
  match l with
  | [] => []
  | a :: rest => (n, a) :: number (S n) rest
  end.

Definition candidates_of (cfg : Config) (t : Track) (dets : list (nat * Detection))
  : list Candidate :=
  flat_map
    (fun nd =>
       let d := snd nd in
       let v := iou (predicted_box t) (bbox d) in
       if matchable t && class_eqb (class t) (cls d)
          && negb (Qltb v (min_iou cfg))
       then [mkCandidate (1 - v) (id t) (fst nd)] else [])
    dets.

Definition candidates (cfg : Config) (ts : list Track) (dets : list (nat * Detection))
  : list Candidate :=
  flat_map (fun t => candidates_of cfg t dets) ts.

Fixpoint insert_by_cost (c : Candidate) (l : list Candidate) : list Candidate :=
  match l with
  | [] => [c]
  | x :: rest =>
      if Qle_bool (cost c) (cost x) then c :: l else x :: insert_by_cost c rest
  end.

Definition sort_by_cost (l : list Candidate) : list Candidate :=
  fold_right insert_by_cost [] l.

Definition mem (n : nat) (l : list nat) : bool := existsb (Nat.eqb n) l.

(** Step 3: greedy matching.  Candidates are taken in order of rising
    cost; one is kept when neither its track nor its detection is taken. *)
Fixpoint greedy (cands : list Candidate) (used_t used_d : list nat)
  : list (nat * nat) :=
  match cands with
  | [] => []
  | c :: rest =>
      if mem (cand_track c) used_t || mem (cand_detection c) used_d
      then greedy rest used_t used_d
      else (cand_track c, cand_detection c)
             :: greedy rest (cand_track c :: used_t) (cand_detection c :: used_d)
  end.

Definition associate (cfg : Config) (ts : list Track) (dets : list Detection)
  : list (nat * nat) :=
  greedy (sort_by_cost (candidates cfg ts (number 0 dets))) [] [].

Definition matched_detection (pairs : list (nat * nat)) (dets : list Detection)
  (t : Track) : option Detection :=
  match find (fun p => Nat.eqb (fst p) (id t)) pairs with
  | Some p => nth_error dets (snd p)
  | None => None
  end.

Definition unmatched_detections (pairs : list (nat * nat)) (dets : list Detection)
  : list Detection :=
  map snd (filter (fun nd => negb (mem (fst nd) (map snd pairs))) (number 0 dets)).

(** Modelled from the spec: step 4, a track matched to detection [d].
    The position becomes the detection's centre, the velocity is
    re-estimated from the last position, the consecutive-match counter
    goes up, [time_since_update] is reset, and a Tentative track with
    three consecutive matches becomes Confirmed.  [old] is the position
    before this frame's prediction. *)
Definition on_match (cm : CourtModel.CourtModel) (old : Point) (t : Track)
  (d : Detection) : Track :=
  let c := center (bbox d) in
  let n := S (hits t) in
  mkTrack (id t) (class t) c
    (mkPoint (px c - px old) (py c - py old))
    (bw (bbox d)) (bh (bbox d))
    (match status t with
     | Tentative => if (confirm_hits <=? n)%nat then Confirmed else Tentative
     | s => s
     end)
    n (age t) 0
    (history t ++ [(frame_index d, CourtModel.project cm c)]).

(** Modelled from the spec: step 5, a track no detection was matched to.
    [time_since_update] goes up and the run of consecutive matches ends; a
    Confirmed track becomes Lost, a Lost track becomes Removed once
    [time_since_update] is over [max_age]. *)
Definition on_miss (cfg : Config) (t : Track) : Track :=
  let n := S (time_since_update t) in
  mkTrack (id t) (class t) (position t) (velocity t) (width t) (height t)
    (match status t with
     | Tentative => Tentative
     | Confirmed => Lost
     | Lost => if (max_age cfg <? n)%nat then Removed else Lost
     | Removed => Removed
     end)
    0 (age t) n (history t).

(** Steps 4 and 5 for one track of the store. *)
Definition advance (cfg : Config) (cm : CourtModel.CourtModel)
  (pairs : list (nat * nat)) (dets : list Detection) (t : Track) : Track :=
  if live t then
    let p := predict t in
    match (if matchable t then matched_detection pairs dets t else None) with
    | Some d => on_match cm (position t) p d
    | None => on_miss cfg p
    end
  else t.

(** A track of class [c] that is Tentative or Confirmed. *)
Definition holds_identity (c : Class) (t : Track) : bool :=
  class_eqb (class t) c && matchable t.

Definition spawn_track (cm : CourtModel.CourtModel) (n : nat) (d : Detection)
  : Track :=
  let c := center (bbox d) in
  mkTrack n (cls d) c (mkPoint 0 0) (bw (bbox d)) (bh (bbox d))
    Tentative 0 0 0 [(frame_index d, CourtModel.project cm c)].

(** Modelled from the spec: step 6 with its edge policy.  An unmatched
    detection spawns a Tentative track unless a track of its class is
    alive and not Lost; further detections of that class are noise. *)
Fixpoint spawn (cm : CourtModel.CourtModel) (next : nat) (ts : list Track)
  (dets : list Detection) : list Track * nat :=
  match dets with
  | [] => (ts, next)
  | d :: rest =>
      if existsb (holds_identity (cls d)) ts
      then spawn cm next ts rest
      else spawn cm (S next) (ts ++ [spawn_track cm next d]) rest
  end.

(** Modelled from the spec: the per-frame algorithm of the Associator on
    the player tracks, given the frame's player detections. *)
Definition update_players (cfg : Config) (cm : CourtModel.CourtModel)
  (next : nat) (ts : list Track) (dets : list Detection) : list Track * nat :=
  let pairs := associate cfg (map predict ts) dets in
  spawn cm next (map (advance cfg cm pairs dets) ts)
        (unmatched_detections pairs dets).





End TrackStore.

(* ===================================================================== *)
(** ** Ball Motion Filter (specification, section 4.4) *)
(* ===================================================================== *)

Module BallFilter.

Local Open Scope Q_scope.

Definition Vec := list Q.
Definition Mat := list Vec.

Definition dot (u v : Vec) : Q :=
  fold_right (fun p acc => fst p * snd p + acc) 0 (combine u v).

Fixpoint transpose (m : Mat) : Mat :=
  match m with
  | [] => []
  | r :: rest =>
      match rest with
      | [] => map (fun x => [x]) r
      | _ :: _ => map (fun p => fst p :: snd p) (combine r (transpose rest))
      end
  end.

Definition mvec (m : Mat) (v : Vec) : Vec := map (fun r => dot r v) m.

Definition mmul (a b : Mat) : Mat :=
  let bt := transpose b in map (fun r => map (dot r) bt) a.

Definition vadd (u v : Vec) : Vec := map (fun p => fst p + snd p) (combine u v).
Definition vsub (u v : Vec) : Vec := map (fun p => fst p - snd p) (combine u v).
Definition madd (a b : Mat) : Mat := map (fun p => vadd (fst p) (snd p)) (combine a b).
Definition msub (a b : Mat) : Mat := map (fun p => vsub (fst p) (snd p)) (combine a b).

Definition scaled_identity (n : nat) (s : Q) : Mat :=
  map (fun i => map (fun j => if Nat.eqb i j then s else 0) (seq 0 n)) (seq 0 n).

(** Inverse of a 2x2 matrix. *)
Definition inv2 (m : Mat) : Mat :=
  match m with
  | [[a; b]; [c; d]] =>
      let det := a * d - b * c in
      [[d / det; - b / det]; [- c / det; a / det]]
  | _ => m
  end.

(** Constant-velocity transition over one frame, on (x, y, vx, vy). *)
Definition transition : Mat :=
  [[1; 0; 1; 0]; [0; 1; 0; 1]; [0; 0; 1; 0]; [0; 0; 0; 1]].

(** The measurement is the position. *)
Definition observation : Mat := [[1; 0; 0; 0]; [0; 1; 0; 0]].

Record Config := mkConfig {
  process_noise : Q;
  measurement_noise : Q;
  gate_threshold : Q;        (* on the Mahalanobis distance *)
  max_speed : Q;             (* pixels per frame *)
  ball_max_coast_frames : nat;
  initial_variance : Q
}.

Record Filter := mkFilter {
  state : Vec;               (* x, y, vx, vy *)
  covariance : Mat;
  coast : nat                (* frames since the last accepted detection *)
}.

Definition pos (f : Filter) : Point :=
  mkPoint (nth 0 (state f) 0) (nth 1 (state f) 0).

Definition measurement (d : Detection) : Vec :=
  let c := center (bbox d) in [px c; py c].

(** Modelled from the spec: the filter started on a detection, at rest. *)
Definition init (cfg : Config) (d : Detection) : Filter :=
  let c := center (bbox d) in
  mkFilter [px c; py c; 0; 0] (scaled_identity 4 (initial_variance cfg)) 0.

(** Fractions are kept in lowest terms. *)
Definition vred (v : Vec) : Vec := map Qred v.
Definition mred (m : Mat) : Mat := map vred m.

(** Constant-velocity prediction of state and covariance. *)
Definition predict (cfg : Config) (f : Filter) : Filter :=
  mkFilter (vred (mvec transition (state f)))
    (mred (madd (mmul (mmul transition (covariance f)) (transpose transition))
                (scaled_identity 4 (process_noise cfg))))
    (coast f).

(** Innovation of detection [d] against the predicted filter [p]. *)
Definition innovation (p : Filter) (d : Detection) : Vec :=
  vsub (measurement d) (mvec observation (state p)).

Definition innovation_covariance (cfg : Config) (p : Filter) : Mat :=
  madd (mmul (mmul observation (covariance p)) (transpose observation))
       (scaled_identity 2 (measurement_noise cfg)).

(** Squared Mahalanobis distance of [d] to the predicted state. *)
Definition mahalanobis2 (cfg : Config) (f : Filter) (d : Detection) : Q :=
  let p := predict cfg f in
  let y := innovation p d in
  dot y (mvec (inv2 (innovation_covariance cfg p)) y).

(** Squared speed implied by moving from the last estimate to [d] over
    the frames elapsed since then. *)
Definition implied_speed2 (f : Filter) (d : Detection) : Q :=
  let dt := inject_Z (Z.of_nat (S (coast f))) in
  dist2 (center (bbox d)) (pos f) / (dt * dt).

(** Modelled from the spec: the gate.  Distance and speed are compared
    through their squares. *)
Definition gate (cfg : Config) (f : Filter) (d : Detection) : bool :=
  Qltb (mahalanobis2 cfg f d) (gate_threshold cfg * gate_threshold cfg)
  && Qle_bool (implied_speed2 f d) (max_speed cfg * max_speed cfg).

(** The candidate the filter accepts: the one of least Mahalanobis
    distance among those that pass the gate. *)
Definition select (cfg : Config) (f : Filter) (dets : list Detection)
  : option Detection :=
  argmin (mahalanobis2 cfg f) (filter (gate cfg f) dets).

(** Kalman measurement update of the predicted filter with [d]. *)
Definition update (cfg : Config) (f : Filter) (d : Detection) : Filter :=
  let p := predict cfg f in
  let y := innovation p d in
  let k := mmul (mmul (covariance p) (transpose observation))
                (inv2 (innovation_covariance cfg p)) in
  mkFilter (vred (vadd (state p) (mvec k y)))
    (mred (msub (covariance p) (mmul (mmul k observation) (covariance p))))
    0.

(** Prediction without update. *)
Definition coast_step (cfg : Config) (f : Filter) : Filter :=
  let p := predict cfg f in
  mkFilter (state p) (covariance p) (S (coast f)).

(** Modelled from the spec: one frame of the Ball Motion Filter on the
    frame's ball detections. *)
Definition step (cfg : Config) (f : Filter) (dets : list Detection) : Filter :=
  match select cfg f dets with
  | Some d => update cfg f d
  | None => coast_step cfg f
  end.

(** The ball track is Lost once the filter has coasted beyond
    [ball_max_coast_frames]. *)
Definition lost (cfg : Config) (f : Filter) : bool :=
  (ball_max_coast_frames cfg <? coast f)%nat.

Record BallTrack := mkBallTrack {
  ball_id : nat;
  filter_state : Filter
}.

(** Modelled from the spec: the ball track over one frame.  Without a
    track, the first ball detection starts one; a Lost track is
    re-initialised, under the same id, by the next detection wherever it
    is; otherwise the gated filter step runs. *)
Definition update_ball (cfg : Config) (next : nat) (b : option BallTrack)
  (dets : list Detection) : option BallTrack * nat :=
  match b with
  | None =>
      match dets with
      | [] => (None, next)
      | d :: _ => (Some (mkBallTrack next (init cfg d)), S next)
      end
  | Some t =>
      if lost cfg (filter_state t) then
        match dets with
        | [] => (Some (mkBallTrack (ball_id t) (coast_step cfg (filter_state t))), next)
        | d :: _ => (Some (mkBallTrack (ball_id t) (init cfg d)), next)
        end
      else (Some (mkBallTrack (ball_id t) (step cfg (filter_state t) dets)), next)
  end.

End BallFilter.

(* ===================================================================== *)
(** ** Event Engine: touch attribution (specification, section 4.5) *)
(* ===================================================================== *)

Module EventEngine.

Local Open Scope Q_scope.

Record Player := mkPlayer {
  player_id : nat;
  court_position : Point
}.

Record Config := mkConfig {
  proximity_radius : Q;
  epsilon : Q                (* on squared distances *)
}.




End EventEngine.

(* ===================================================================== *)
(** ** The pipeline: calibration, then the frames in order *)
(* ===================================================================== *)

Module Pipeline.

Record Config := mkConfig {
  adapter : DetectionAdapter.Config;
  calibration_threshold : Q;
  tracker : TrackStore.Config;
  ball_filter : BallFilter.Config
}.

Record Store := mkStore {
  tracks : list TrackStore.Track;
  ball_track : option BallFilter.BallTrack;
  next_id : nat;
  last_frame : option nat;
  frames_processed : nat
}.

Definition empty : Store := mkStore [] None 0 None 0.

Definition of_player (d : Detection) : bool := is_player (cls d).
Definition of_ball (d : Detection) : bool := class_eqb (cls d) ball.

(** A frame of the input: its index and the detector's raw output. *)
Definition Frame : Type := nat * list DetectionAdapter.RawDetection.

Definition in_order (s : Store) (frame : nat) : bool :=
  match last_frame s with
  | None => true
  | Some n => (n <? frame)%nat
  end.

(** Modelled from the spec: one frame through the Detection Adapter, the
    player Associator and the Ball Motion Filter.  A frame index that
    does not increase is rejected with [OutOfOrderFrameError] and leaves
    the store as it was. *)
Definition process_frame (cfg : Config) (cm : CourtModel.CourtModel)
  (s : Store) (fr : Frame) : Error + Store :=
  if in_order s (fst fr) then
    let dets := DetectionAdapter.adapt (adapter cfg) (fst fr) (snd fr) in
    let (ts, n1) :=
      TrackStore.update_players (tracker cfg) cm (next_id s) (tracks s)
        (filter of_player dets) in
    let (b, n2) :=
      BallFilter.update_ball (ball_filter cfg) n1 (ball_track s)
        (filter of_ball dets) in
    inr (mkStore ts b n2 (Some (fst fr)) (S (frames_processed s)))
  else inl OutOfOrderFrameError.

Fixpoint run (cfg : Config) (cm : CourtModel.CourtModel) (s : Store)
  (frames : list Frame) : Error + Store :=
  match frames with
  | [] => inr s
  | fr :: rest =>
      match process_frame cfg cm s fr with
      | inl e => inl e
      | inr s' => run cfg cm s' rest
      end
  end.

(** Modelled from the spec: an analysis run.  The Court Model is built
    first; a [CalibrationError] ends the run there. *)
Definition analyse (cfg : Config) (corners : list Point)
  (dims : CourtModel.CourtDimensions) (frames : list Frame) : Error + Store :=
  match CourtModel.construct (calibration_threshold cfg) corners dims with
  | inl e => inl e
  | inr cm => run cfg cm empty frames
  end.



End Pipeline.

(* ===================================================================== *)
(** ** The batch conversion script (720p, 30 fps) *)
(* ===================================================================== *)

Module ConvertScript.

Local Open Scope string_scope.

(** The file system, as far as the script can tell: the paths that
    exist. *)
Definition FS := list string.








Definition extensions : list string :=
  ["*.mp4"; "*.mov"; "*.mkv"; "*.avi"; "*.webm"; "*.flv"; "*.m4v"; "*.wmv"].

(** What a run leaves behind: the file system, the lines written with
    [Write-Host], the error stream, and the ffmpeg invocations as pairs of
    input and output path. *)
Record State := mkState {
  fs : FS;
  host : list string;
  errors : list string;
  invocations : list (string * string)
}.

Section Script.

(** [Join-Path]. *)
Variable JoinPath : string -> string -> string.

(** [Get-ChildItem -Path folder -Filter pattern -File]: the names of the
    files found. *)
Variable GetChildItem : FS -> string -> string -> list string.

(** Whether the output file exists once ffmpeg has run on the input. *)
Variable ffmpeg : string -> string -> bool.




(** The files the loop goes through: one listing per extension, in the
    order of [extensions]. *)
Definition files (fs1 : FS) (InputFolder : string) : list string :=
  flat_map (fun ext => GetChildItem fs1 InputFolder ext) extensions.



End Script.

End ConvertScript.

(* ===================================================================== *)
(** ** Concrete inputs used to exercise the models *)
(* ===================================================================== *)

Module Examples.

Local Open Scope Q_scope.

Definition adapter_config : DetectionAdapter.Config :=
  DetectionAdapter.mkConfig 1280 720 DetectionAdapter.default_confidence_floor.

(** A player box that sticks out of the frame, a ball under the floor and
    a detection of an unknown class. *)
Definition raw_frame : nat * list DetectionAdapter.RawDetection :=
  (7%nat,
   [DetectionAdapter.mkRaw 0 (mkBBox 1200 650 120 100) (9 # 10);
    DetectionAdapter.mkRaw 5 (mkBBox 40 40 12 12) (2 # 10);
    DetectionAdapter.mkRaw 9 (mkBBox 10 10 20 20) (8 # 10)]).


Definition ball_position : Point := mkPoint 5 10.


(** Court corners as seen by a camera behind the baseline. *)
Definition corners : list Point :=
  [mkPoint 100 600; mkPoint 1100 600; mkPoint 900 200; mkPoint 300 200].

(** Three of these four corners lie on the diagonal. *)
Definition degenerate_corners : list Point :=
  [mkPoint 0 0; mkPoint 100 100; mkPoint 200 200; mkPoint 500 0].

Definition dims : CourtModel.CourtDimensions := CourtModel.mkDims 10 20.

Definition ball_config : BallFilter.Config :=
  BallFilter.mkConfig 1 1 3 50 2 4.

Definition config : Pipeline.Config :=
  Pipeline.mkConfig adapter_config 1000000 TrackStore.default_config ball_config.






Definition ball_at (i : nat) (x y : Q) : Detection :=
  mkDetection i ball (mkBBox (x - 5) (y - 5) 10 10) (9 # 10).




Definition near_detection : Detection := ball_at 1 102 300.









End Examples.

(* ===================================================================== *)
(** * Theorems *)
(* ===================================================================== *)

(** ** Login and upload pages *)

Section FrontEnd.

Import LoginPage App UploadPage.

Lemma buttonShown_truthy (fileName : State) :
  buttonShown fileName = truthy fileName.
Proof.
  unfold buttonShown, buttonClass.
  destruct (truthy fileName); reflexivity.
Qed.

Lemma onChange_truthy (files : list File) :
  truthy (onChange files) = true -> files <> [].
Proof. destruct files; simpl; [discriminate | intros _ ?; discriminate]. Qed.

Lemma step_location (fileName : State) (w : World) :
  location (exec (handleAnalyse fileName) w) = "/1234".
Proof. reflexivity. Qed.

Lemma run_fileSelected (acts : list Action) :
  forall (fileName : State) (w : World) (sel : bool),
    (truthy fileName = true -> sel = true) ->
    truthy (fst (run acts (fileName, w))) = true ->
    fileSelected acts sel = true.
Proof.
  induction acts as [|a acts IH]; intros fileName w sel Hsel Hshown.
  - simpl in *. auto.
  - destruct a as [files|]; simpl in *.
    + apply (IH (onChange files) w); [|exact Hshown].
      intros Ht. apply onChange_truthy in Ht.
      destruct files; [contradiction | reflexivity].
    + destruct (buttonShown fileName);
        eapply IH; eauto.
Qed.

End FrontEnd.

(** C9: whatever the username and password fields hold (both empty
    included), [handleLogin] prevents the default submit, ends with
    [loginSuccessful] true and has navigated to "/upload"; no input makes the
    login fail and the fields are never read. *)
Theorem handleLogin_accepts_every_submission :
  forall (username password : string) (w : World),
    let r := LoginPage.handleLogin (LoginPage.mkFormEvent username password) w in
    fst r = true /\
    defaultPrevented (snd r) = true /\
    location (snd r) = "/upload" /\
    alerts (snd r) = (alerts w ++ ["Login form submitted"])%list /\
    r = LoginPage.handleLogin (LoginPage.mkFormEvent "" "") w.
Proof.
  intros username password w. cbv zeta.
  repeat split; reflexivity.
Qed.

(** C10: the analyse button carries the class "hidden" while [fileName] is
    null, so on any run of the page it shows only when the latest file choice
    selected a file; [handleAnalyse] always navigates to "/1234"; the route
    table registers only "/" and "/upload" and matches neither against
    "/1234", so every press of the shown button ends on an unmatched route. *)
Theorem analyse_navigates_to_unmatched_route :
  UploadPage.buttonClass None = "hidden" /\
  UploadPage.buttonShown UploadPage.initial = false /\
  (forall fileName w,
      location (exec (UploadPage.handleAnalyse fileName) w) = "/1234") /\
  map fst App.routes = ["/"; "/upload"] /\
  App.matchRoutes App.routes "/1234" = None /\
  (forall (acts : list UploadPage.Action) (w0 : World),
      let st := UploadPage.run acts (UploadPage.initial, w0) in
      UploadPage.buttonShown (fst st) = true ->
      UploadPage.fileSelected acts false = true /\
      fst st <> None /\
      App.matchRoutes App.routes
        (location (snd (UploadPage.step st UploadPage.PressAnalyse))) = None).
Proof.
  split; [reflexivity|]. split; [reflexivity|].
  split; [intros; reflexivity|]. split; [reflexivity|]. split; [reflexivity|].
  intros acts w0 st Hshown.
  destruct (UploadPage.run acts (UploadPage.initial, w0)) as [fileName w] eqn:E.
  subst st. simpl in Hshown. split; [|split].
  - rewrite buttonShown_truthy in Hshown.
    apply (run_fileSelected acts UploadPage.initial w0); [discriminate|].
    rewrite E. exact Hshown.
  - simpl. intros ->. discriminate.
  - simpl. rewrite Hshown. reflexivity.
Qed.

Lemma analyse_navigates_to_unmatched_route_witness :
  UploadPage.fileSelected
    [UploadPage.SelectFiles [UploadPage.mkFile "kamp.mp4"]] false = true /\
  App.matchRoutes App.routes
    (location (snd (UploadPage.step
       (UploadPage.run [UploadPage.SelectFiles [UploadPage.mkFile "kamp.mp4"]]
          (UploadPage.initial, opened "/upload"))
       UploadPage.PressAnalyse))) = None.
Proof.
  destruct analyse_navigates_to_unmatched_route as (_ & _ & _ & _ & _ & H).
  destruct (H [UploadPage.SelectFiles [UploadPage.mkFile "kamp.mp4"]]
              (opened "/upload")) as (H1 & _ & H3).
  - reflexivity.
  - split; [exact H1 | exact H3].
Defined.

(** ** Rationals and minima *)

Section Rationals.

Local Open Scope Q_scope.

Lemma Qltb_lt (a b : Q) : Qltb a b = true <-> a < b.
Proof.
  unfold Qltb. rewrite negb_true_iff. split.
  - intros H. apply Qnot_le_lt. intros Hle.
    apply Qle_bool_iff in Hle. congruence.
  - intros H. destruct (Qle_bool b a) eqn:E; [|reflexivity].
    apply Qle_bool_iff in E. exfalso. exact (Qlt_not_le _ _ H E).
Qed.






End Rationals.

(** ** Detection Adapter *)

Section DetectionAdapterFacts.

Import DetectionAdapter.
Local Open Scope Q_scope.






End DetectionAdapterFacts.



(** ** Event Engine: touch attribution *)

Section TouchAttribution.

Import EventEngine.
Local Open Scope Q_scope.

Variable cfg : Config.
Variable ball_position : Point.

Let d (p : Player) : Q := dist2 ball_position (court_position p).


End TouchAttribution.



(** ** Court Model *)

Section CourtModelFacts.

Import CourtModel.
Local Open Scope Q_scope.

Lemma det3_frame_map (p1 p2 p3 p4 : Point) :
  det3 (frame_map p1 p2 p3 p4)
  == orient p1 p2 p3 * (orient p2 p3 p4 * (orient p1 p3 p4 * orient p1 p2 p4)) * (-1 # 1).
Proof. unfold det3, frame_map, orient; simpl. ring. Qed.

Lemma det3_frame_map_zero (p1 p2 p3 p4 : Point) :
  det3 (frame_map p1 p2 p3 p4) == 0 <-> three_collinear p1 p2 p3 p4.
Proof.
  rewrite det3_frame_map. unfold three_collinear. split.
  - intros H.
    apply Qmult_integral in H as [H|H]; [|discriminate H].
    apply Qmult_integral in H as [H|H]; [tauto|].
    apply Qmult_integral in H as [H|H]; [tauto|].
    apply Qmult_integral in H as [H|H]; tauto.
  - intros [H|[H|[H|H]]]; rewrite H; ring.
Qed.

Lemma construct_fails (thr : Q) (p1 p2 p3 p4 : Point) (d : CourtDimensions) :
  construct thr [p1; p2; p3; p4] d = inl CalibrationError <->
  three_collinear p1 p2 p3 p4 \/
  thr < condition_number (homography_of p1 p2 p3 p4 d).
Proof.
  unfold construct.
  destruct (Qeq_bool (det3 (frame_map p1 p2 p3 p4)) 0) eqn:E.
  - apply Qeq_bool_iff, det3_frame_map_zero in E. tauto.
  - assert (Hn : ~ three_collinear p1 p2 p3 p4).
    { intros H. apply det3_frame_map_zero, Qeq_bool_iff in H. congruence. }
    destruct (Qltb thr (condition_number (homography_of p1 p2 p3 p4 d))) eqn:C.
    + apply Qltb_lt in C. tauto.
    + split; [discriminate|]. intros [H|H]; [contradiction|].
      apply Qltb_lt in H. congruence.
Qed.

Lemma construct_missing (thr : Q) (corners : list Point) (d : CourtDimensions) :
  length corners <> 4%nat -> construct thr corners d = inl CalibrationError.
Proof.
  destruct corners as [|p1 [|p2 [|p3 [|p4 [|p5 rest]]]]]; intros H;
    [reflexivity | reflexivity | reflexivity | reflexivity | | reflexivity].
  exfalso. apply H. reflexivity.
Qed.

End CourtModelFacts.

(** C6: on four corner points the Court Model's construction fails with
    [CalibrationError] exactly when three of them are collinear or the
    homography's condition number is above the threshold; it also fails when
    corners are missing.  The failure ends the run whatever the frames are:
    no store is returned, and a run that returns a store had a calibration
    that is not degenerate. *)
Theorem calibration_failure_is_fatal :
  forall (cfg : Pipeline.Config) (p1 p2 p3 p4 : Point)
         (dims : CourtModel.CourtDimensions),
    let thr := Pipeline.calibration_threshold cfg in
    let degenerate :=
      CourtModel.three_collinear p1 p2 p3 p4 \/
      (thr < CourtModel.condition_number (CourtModel.homography_of p1 p2 p3 p4 dims))%Q in
    (CourtModel.construct thr [p1; p2; p3; p4] dims = inl CalibrationError
     <-> degenerate) /\
    (degenerate ->
     forall frames, Pipeline.analyse cfg [p1; p2; p3; p4] dims frames
                    = inl CalibrationError) /\
    (forall frames s,
        Pipeline.analyse cfg [p1; p2; p3; p4] dims frames = inr s ->
        ~ degenerate) /\
    (forall corners frames,
        length corners <> 4 ->
        Pipeline.analyse cfg corners dims frames = inl CalibrationError).
Proof.
  intros cfg p1 p2 p3 p4 dims thr degenerate.
  pose proof (construct_fails thr p1 p2 p3 p4 dims) as Hiff.
  fold degenerate in Hiff.
  split; [exact Hiff|]. split; [|split].
  - intros Hd frames. unfold Pipeline.analyse. fold thr.
    apply Hiff in Hd. rewrite Hd. reflexivity.
  - intros frames s Hrun Hd. apply Hiff in Hd.
    unfold Pipeline.analyse in Hrun. fold thr in Hrun.
    rewrite Hd in Hrun. discriminate.
  - intros corners frames Hlen. unfold Pipeline.analyse.
    rewrite construct_missing by exact Hlen. reflexivity.
Qed.

Lemma calibration_failure_is_fatal_witness :
  Pipeline.analyse Examples.config Examples.degenerate_corners Examples.dims
    [Examples.raw_frame] = inl CalibrationError.
Proof.
  destruct (calibration_failure_is_fatal Examples.config
              (mkPoint 0 0) (mkPoint 100 100) (mkPoint 200 200) (mkPoint 500 0)
              Examples.dims) as (_ & H & _).
  apply H. left. left. vm_compute. reflexivity.
Defined.

(** ** Track Store *)

Section TrackStoreFacts.

Import TrackStore.
Local Open Scope list_scope.

Variable cfg : Config.
Variable cm : CourtModel.CourtModel.











End TrackStoreFacts.

(** ** The pipeline over a stream *)

Section PipelineFacts.

Import Pipeline.
Local Open Scope list_scope.

Variable cfg : Config.
Variable cm : CourtModel.CourtModel.








End PipelineFacts.





(** ** Ball Motion Filter *)

Section BallFilterFacts.

Import BallFilter.
Local Open Scope Q_scope.

Variable cfg : Config.
Variable f : Filter.





End BallFilterFacts.




(** ** The batch conversion script *)

Section ConvertScriptFacts.

Import ConvertScript.
Local Open Scope list_scope.

Variable JoinPath : string -> string -> string.
Variable GetChildItem : FS -> string -> string -> list string.
Variable ffmpeg : string -> string -> bool.

Variables InputFolder OutputFolder : string.














End ConvertScriptFacts.

Section ConvertScriptRuns.

Import ConvertScript.
Local Open Scope list_scope.

Variable JoinPath : string -> string -> string.
Variable GetChildItem : FS -> string -> string -> list string.
Variable ffmpeg : string -> string -> bool.



End ConvertScriptRuns.







(** ** The upload page over a run of user actions *)

Section UploadPageRuns.

Import UploadPage.
Local Open Scope list_scope.

Lemma lastSelection_from (acts : list Action) :
  forall last : option (list File),
    lastSelection acts last
    = match lastSelection acts None with
      | Some files => Some files
      | None => last
      end.
Proof.
  induction acts as [|a acts IH]; intros last; simpl; [reflexivity|].
  destruct a as [files|]; [|apply IH].
  rewrite (IH (Some files)).
  destruct (lastSelection acts None); reflexivity.
Qed.

Lemma run_fileName (acts : list Action) :
  forall (fileName : State) (w : World),
    fst (run acts (fileName, w))
    = match lastSelection acts None with
      | Some files => onChange files
      | None => fileName
      end.
Proof.
  induction acts as [|a acts IH]; intros fileName w; simpl; [reflexivity|].
  destruct a as [files|]; simpl.
  - change (fold_left step acts (onChange files, w))
      with (run acts (onChange files, w)).
    rewrite IH, (lastSelection_from acts (Some files)).
    destruct (lastSelection acts None); reflexivity.
  - destruct (buttonShown fileName); simpl; apply IH.
Qed.

Lemma run_effects (acts : list Action) :
  forall (fileName : State) (w : World),
    let w' := snd (run acts (fileName, w)) in
    alerts w' = alerts w ++ map (String.append "Analyse started for file: ")
                               (announced acts fileName) /\
    history w' = repeat "/1234"%string (length (announced acts fileName)) ++ history w /\
    defaultPrevented w' = defaultPrevented w /\
    Forall (fun n => n <> ""%string) (announced acts fileName).
Proof.
  induction acts as [|a acts IH]; intros fileName w; simpl.
  - rewrite app_nil_r. auto.
  - destruct a as [files|]; simpl.
    + apply IH.
    + destruct (buttonShown fileName) eqn:B.
      * destruct fileName as [s|]; [|discriminate B].
        destruct (IH (Some s) (exec (handleAnalyse (Some s)) w))
          as (Ha & Hh & Hd & Hn).
        assert (R : forall (k : nat) (l : list string),
                   repeat "/1234"%string k ++ "/1234"%string :: l
                   = "/1234"%string :: repeat "/1234"%string k ++ l).
        { induction k as [|k IHk]; intros l; simpl; [reflexivity|].
          rewrite IHk. reflexivity. }
        simpl in Ha, Hh, Hd |- *. rewrite Ha, Hh, Hd, R, <- app_assoc.
        split; [reflexivity|]. split; [reflexivity|].
        split; [reflexivity|]. constructor; [|exact Hn].
        intros ->. discriminate B.
      * apply IH.
Qed.

End UploadPageRuns.

(** The upload page always reflects the latest file choice and nothing
    else: after any run of actions [fileName] is the name of the first file
    of the latest selection (null when that selection was empty or there was
    none), whatever was chosen or pressed before; the analyse button shows and
    the status line gives that name exactly when the name is not empty, and
    otherwise the button is hidden and the line reads "Ingen fil valgt
    endnu". *)
Theorem upload_page_reflects_last_selection :
  forall (acts : list UploadPage.Action) (w0 : World),
    let fileName := fst (UploadPage.run acts (UploadPage.initial, w0)) in
    fileName = match UploadPage.lastSelection acts None with
               | Some files => UploadPage.onChange files
               | None => None
               end /\
    match UploadPage.lastSelection acts None with
    | Some (f :: _) =>
        if String.eqb (UploadPage.name f) ""
        then UploadPage.buttonShown fileName = false /\
             UploadPage.statusText fileName = "Ingen fil valgt endnu"
        else UploadPage.buttonShown fileName = true /\
             UploadPage.statusText fileName = UploadPage.name f
    | _ => UploadPage.buttonShown fileName = false /\
           UploadPage.statusText fileName = "Ingen fil valgt endnu"
    end.
Proof.
  intros acts w0 fileName. subst fileName.
  rewrite run_fileName.
  split; [reflexivity|].
  destruct (UploadPage.lastSelection acts None) as [[|f files]|];
    try (split; reflexivity).
  unfold UploadPage.buttonShown, UploadPage.buttonClass, UploadPage.statusText.
  simpl. destruct (String.eqb (UploadPage.name f) ""); split; reflexivity.
Qed.

(** On the upload page every alert names a selected file and goes with
    one navigation: over any run of actions the alerts added are "Analyse
    started for file: " followed by a file name that is not empty (never
    "null"), one per press of the shown button, and the history gains one
    "/1234" entry for each of them and nothing else. *)
Theorem analyse_alerts_name_the_file :
  forall (acts : list UploadPage.Action) (w0 : World),
    let w := snd (UploadPage.run acts (UploadPage.initial, w0)) in
    let names := UploadPage.announced acts UploadPage.initial in
    alerts w = (alerts w0 ++ map (String.append "Analyse started for file: ") names)%list /\
    history w = (repeat "/1234" (length names) ++ history w0)%list /\
    Forall (fun n => n <> "") names.
Proof.
  intros acts w0 w names.
  destruct (run_effects acts UploadPage.initial w0) as (Ha & Hh & _ & Hn).
  auto.
Qed.

(** ** Navigation through the pages *)

Section AppFlowFacts.

Import AppFlow.
Local Open Scope list_scope.

(** The three histories a session can have. *)
Let at_login (w : World) : Prop := history w = ["/"%string].
Let at_upload (w : World) : Prop := history w = ["/upload"; "/"]%string.
Let at_analysis (w : World) : Prop := history w = ["/1234"; "/upload"; "/"]%string.

Lemma rendered_head (w : World) (p : string) (rest : list string) :
  history w = p :: rest -> rendered w = App.matchRoutes App.routes p.
Proof. intros H. unfold rendered, location. rewrite H. reflexivity. Qed.

Lemma step_keeps_shape (st : UploadPage.State * World) (a : UserAction) :
  at_login (snd st) \/ at_upload (snd st) \/ at_analysis (snd st) ->
  at_login (snd (step st a)) \/ at_upload (snd (step st a)) \/
  at_analysis (snd (step st a)).
Proof.
  unfold at_login, at_upload, at_analysis.
  destruct st as [fileName w]. simpl. intros [H|[H|H]];
    unfold step; cbn [snd]; rewrite (rendered_head _ _ _ H); simpl.
  - destruct a as [event|a']; simpl; [rewrite H|]; auto.
  - destruct a as [event|[files|]]; simpl; auto.
    destruct (UploadPage.buttonShown fileName); simpl; [rewrite H|]; auto.
  - destruct a; simpl; auto.
Qed.

Lemma run_keeps_shape (acts : list UserAction) :
  forall st,
    at_login (snd st) \/ at_upload (snd st) \/ at_analysis (snd st) ->
    at_login (snd (run acts st)) \/ at_upload (snd (run acts st)) \/
    at_analysis (snd (run acts st)).
Proof.
  induction acts as [|a acts IH]; intros st H; simpl; [exact H|].
  apply IH. now apply step_keeps_shape.
Qed.

Lemma run_stuck (acts : list UserAction) :
  forall st, rendered (snd st) = None -> run acts st = st.
Proof.
  induction acts as [|a acts IH]; intros st H; simpl; [reflexivity|].
  assert (E : step st a = st).
  { unfold step. rewrite H. reflexivity. }
  rewrite E. now apply IH.
Qed.

End AppFlowFacts.

(** Navigation is one way.  From the login page, whatever the user does,
    the session's history is "/" alone, then "/upload" on top of it, then
    "/1234" on top of both: the app never goes back, logs in at most once and
    starts at most one analysis.  Every login submission on the login page
    brings up the upload page; and once at "/1234", where no route matches and
    nothing is rendered, no action has any effect. *)
Theorem navigation_is_one_way :
  forall (acts : list AppFlow.UserAction),
    let st := AppFlow.run acts AppFlow.start in
    (history (snd st) = ["/"] \/
     history (snd st) = ["/upload"; "/"] \/
     history (snd st) = ["/1234"; "/upload"; "/"]) /\
    (forall event,
        AppFlow.rendered
          (snd (AppFlow.step AppFlow.start (AppFlow.SubmitLogin event)))
        = Some App.UploadPageElement) /\
    (history (snd st) = ["/1234"; "/upload"; "/"] ->
     forall further, AppFlow.run further st = st).
Proof.
  intros acts st. split; [|split].
  - subst st. apply run_keeps_shape. left. reflexivity.
  - intros event. reflexivity.
  - intros H further. apply run_stuck.
    rewrite (rendered_head _ _ _ H). reflexivity.
Qed.

Lemma navigation_is_one_way_witness :
  AppFlow.run
    [AppFlow.SubmitLogin (LoginPage.mkFormEvent "" "")]
    (AppFlow.run
       [AppFlow.SubmitLogin (LoginPage.mkFormEvent "spiller" "hemmelig");
        AppFlow.OnUploadPage (UploadPage.SelectFiles [UploadPage.mkFile "kamp.mp4"]);
        AppFlow.OnUploadPage UploadPage.PressAnalyse]
       AppFlow.start)
  = AppFlow.run
      [AppFlow.SubmitLogin (LoginPage.mkFormEvent "spiller" "hemmelig");
       AppFlow.OnUploadPage (UploadPage.SelectFiles [UploadPage.mkFile "kamp.mp4"]);
       AppFlow.OnUploadPage UploadPage.PressAnalyse]
      AppFlow.start.
Proof.
  destruct (navigation_is_one_way
              [AppFlow.SubmitLogin (LoginPage.mkFormEvent "spiller" "hemmelig");
               AppFlow.OnUploadPage (UploadPage.SelectFiles [UploadPage.mkFile "kamp.mp4"]);
               AppFlow.OnUploadPage UploadPage.PressAnalyse])
    as (_ & _ & H).
  apply H. reflexivity.
Defined.
